(** * Orchid: the web page / web view event contract

    A shallow embedding of [orchid/widgets/web/__init__.py]: the two classes
    [WebPage] (a [QWebEnginePage]) and [WebView] (a [QWebEngineView]).

    The handlers are Python methods that mutate objects, talk to the GUI
    toolkit and may raise.  They are embedded in a state-and-exception monad
    over a [World]: the objects reachable from one page/view pair, the
    answers the user gives to modal prompts, and a trace of everything the
    toolkit was asked to do.  A raised exception keeps the mutations made
    before it, as in Python. *)

From Stdlib Require Import ZArith List String Ascii Bool Lia.
From Stdlib Require Import Decimal DecimalString.
Import ListNotations.
Open Scope string_scope.
Open Scope Z_scope.

(* ===================================================================== *)
(** * 1. Python: exceptions, classes and attribute lookup                 *)
(* ===================================================================== *)

(** The exceptions the handlers can run into. *)
Inductive exn : Type :=
| AttributeError (type_name attr : string)
| TypeError (msg : string)
| UnboundLocalError (name : string)
| IndexError (msg : string).

Inductive result (A : Type) : Type :=
| Ok (a : A)
| Raise (e : exn).
Arguments Ok {A} a.
Arguments Raise {A} e.

(** The classes whose instances the handlers touch.  [WebPage] and
    [WebView] are the two classes of the source; the others are the
    toolkit's and Python's own. *)
Inductive pytype : Type :=
| t_str | t_list
| t_QObject | t_QWidget | t_QDialog | t_QMessageBox | t_QMenu | t_QAction
| t_QWebEnginePage | t_QWebEngineView
| t_WebPage | t_WebView.

Definition type_name (t : pytype) : string :=
  match t with
  | t_str => "str" | t_list => "list"
  | t_QObject => "QObject" | t_QWidget => "QWidget" | t_QDialog => "QDialog"
  | t_QMessageBox => "QMessageBox" | t_QMenu => "QMenu" | t_QAction => "QAction"
  | t_QWebEnginePage => "QWebEnginePage" | t_QWebEngineView => "QWebEngineView"
  | t_WebPage => "WebPage" | t_WebView => "WebView"
  end.

Definition pytype_eqb (a b : pytype) : bool :=
  String.eqb (type_name a) (type_name b).

(** Method resolution order: the class itself, then its bases.
    [class WebPage(QWebEnginePage)] and [class WebView(QWebEngineView)] are
    lines 11 and 164 of the source; a [QWebEnginePage] is a [QObject] but
    not a widget, a [QWebEngineView] is a [QWidget]. *)
Definition mro (t : pytype) : list pytype :=
  match t with
  | t_str => [t_str]
  | t_list => [t_list]
  | t_QObject => [t_QObject]
  | t_QWidget => [t_QWidget; t_QObject]
  | t_QDialog => [t_QDialog; t_QWidget; t_QObject]
  | t_QMessageBox => [t_QMessageBox; t_QDialog; t_QWidget; t_QObject]
  | t_QMenu => [t_QMenu; t_QWidget; t_QObject]
  | t_QAction => [t_QAction; t_QObject]
  | t_QWebEnginePage => [t_QWebEnginePage; t_QObject]
  | t_QWebEngineView => [t_QWebEngineView; t_QWidget; t_QObject]
  | t_WebPage => [t_WebPage; t_QWebEnginePage; t_QObject]
  | t_WebView => [t_WebView; t_QWebEngineView; t_QWidget; t_QObject]
  end.

Definition isinstance (t base : pytype) : bool :=
  existsb (pytype_eqb base) (mro t).

(** The attributes each class defines itself.  For [WebPage] and [WebView]
    these are the names bound in the class bodies of the source; for [str]
    and [list] the public methods of Python 3 (the double-underscore
    protocol methods are reached through operators, not by name); for the
    toolkit classes the members of the PyQt5 binding that the source uses
    or that lie near the names it uses, spelled as the binding spells
    them: Qt's names are camelCase, with no [get] prefix and no
    underscore. *)
Definition own_members (t : pytype) : list string :=
  match t with
  | t_str =>
      ["capitalize"; "casefold"; "center"; "count"; "encode"; "endswith";
       "expandtabs"; "find"; "format"; "format_map"; "index"; "isalnum";
       "isalpha"; "isascii"; "isdecimal"; "isdigit"; "isidentifier";
       "islower"; "isnumeric"; "isprintable"; "isspace"; "istitle";
       "isupper"; "join"; "ljust"; "lower"; "lstrip"; "maketrans";
       "partition"; "removeprefix"; "removesuffix"; "replace"; "rfind";
       "rindex"; "rjust"; "rpartition";
       "rsplit"; "rstrip"; "split"; "splitlines"; "startswith"; "strip";
       "swapcase"; "title"; "translate"; "upper"; "zfill"]
  | t_list =>
      ["append"; "clear"; "copy"; "count"; "extend"; "index"; "insert";
       "pop"; "remove"; "reverse"; "sort"]
  | t_QObject =>
      ["blockSignals"; "children"; "deleteLater"; "destroyed"; "findChild";
       "findChildren"; "objectName"; "parent"; "property"; "setObjectName";
       "setParent"; "setProperty"; "tr"]
  | t_QWidget =>
      ["actions"; "addAction"; "addActions"; "close"; "hide"; "insertAction";
       "insertActions"; "removeAction"; "setWindowFlags"; "setWindowTitle";
       "show"; "style"; "window"; "windowFlags"; "windowTitle"]
  | t_QDialog =>
      ["Accepted"; "Rejected"; "accept"; "exec"; "exec_"; "open"; "reject";
       "result"; "setModal"]
  | t_QMessageBox =>
      ["Critical"; "Information"; "NoIcon"; "Question"; "Warning";
       "Yes"; "No"; "Ok"; "Cancel";
       "about"; "critical"; "information"; "question"; "warning"]
  | t_QMenu =>
      ["addMenu"; "addSection"; "addSeparator"; "clear"; "insertMenu";
       "insertSection"; "insertSeparator"; "popup"; "title"]
  | t_QAction =>
      ["changed"; "isEnabled"; "setEnabled"; "setText"; "text"; "trigger";
       "triggered"]
  | t_QWebEnginePage =>
      ["Back"; "Forward"; "Reload"; "Stop"; "InspectElement"; "ViewSource";
       "PermissionGrantedByUser"; "PermissionDeniedByUser";
       "action"; "certificateError"; "createStandardContextMenu"; "icon";
       "profile"; "setFeaturePermission"; "triggerAction"; "url"]
  | t_QWebEngineView =>
      ["back"; "contextMenuEvent"; "createWindow"; "forward"; "icon";
       "iconChanged"; "iconUrl"; "load"; "loadFinished"; "loadProgress";
       "loadStarted"; "page"; "reload"; "renderProcessTerminated";
       "setPage"; "setUrl"; "stop"; "title"; "url"]
  | t_WebPage =>
      ["WebAction"; "RenderProcessTerminationStatus"; "WebWindowType";
       "__init__"; "certificateError"; "_on_authentication_required";
       "_on_feature_permission_requested";
       "_on_proxy_authentication_required";
       "_on_register_protocol_handler_requested";
       "_on_select_client_certificate"]
  | t_WebView =>
      ["signal_webaction_state_changed"; "signal_favicon_changed";
       "signal_dev_tools_requested"; "__init__"; "_on_load_started";
       "_on_load_progress_changed"; "_on_load_finished";
       "_on_favicon_changed"; "_on_render_process_terminated";
       "_on_webaction_changed"; "_on_dev_tools_requested"; "set_page";
       "get_load_progress"; "is_webaction_enabled"; "get_favicon";
       "createWindow"; "contextMenuEvent"]
  end.

Definition members (t : pytype) : list string :=
  flat_map own_members (mro t).

Definition hasattr (t : pytype) (name : string) : bool :=
  existsb (String.eqb name) (members t).

(* ===================================================================== *)
(** * 2. The toolkit's values                                             *)
(* ===================================================================== *)

(** [QMessageBox.StandardButton]: what a message box returns. *)
Inductive StandardButton : Type := Yes | No | ButtonOk.

Definition StandardButton_eqb (a b : StandardButton) : bool :=
  match a, b with
  | Yes, Yes | No, No | ButtonOk, ButtonOk => true
  | _, _ => false
  end.

(** [QDialog.DialogCode]. *)
Inductive DialogCode : Type := Rejected | Accepted.

Definition DialogCode_eqb (a b : DialogCode) : bool :=
  match a, b with Rejected, Rejected | Accepted, Accepted => true | _, _ => false end.

(** [QWebEnginePage.PermissionPolicy], the two values the page writes. *)
Inductive PermissionPolicy : Type :=
| PermissionGrantedByUser
| PermissionDeniedByUser.

(** [QWebEnginePage.Feature] is an integer enumeration; the handler uses
    its values as dictionary keys. *)
Definition Notifications : Z := 0.
Definition Geolocation : Z := 1.
Definition MediaAudioCapture : Z := 2.
Definition MediaVideoCapture : Z := 3.
Definition MediaAudioVideoCapture : Z := 4.
Definition MouseLock : Z := 5.
Definition DesktopVideoCapture : Z := 6.
Definition DesktopAudioVideoCapture : Z := 7.

(** [Qt.WindowContextHelpButtonHint]. *)
Definition WindowContextHelpButtonHint : Z := 65536.

(** [QStyle.StandardPixmap], the three the view asks for. *)
Inductive StandardPixmap : Type :=
| SP_BrowserStop
| SP_BrowserReload
| SP_MessageBoxInformation.

(** An icon: the null icon (what the toolkit hands out where there is no
    icon), a favicon the page delivered, or one of the style's. *)
Inductive QIcon : Type :=
| NullIcon
| Favicon (id : nat)
| standardIcon (sp : StandardPixmap).

(** A URL, as far as the handlers read it. *)
Record QUrl : Type := { host : string }.

(** A client certificate, by its serial number. *)
Record QSslCertificate : Type := { serial : nat }.

Record QWebEngineClientCertificateSelection : Type :=
  { certificates : list QSslCertificate }.

Record QWebEngineCertificateError : Type :=
  { isOverridable : bool; errorDescription : string }.

Record QWebEngineRegisterProtocolHandlerRequest : Type :=
  { origin : QUrl; scheme : string }.

(** The credential sink the engine hands to the authentication handlers. *)
Record QAuthenticator : Type :=
  { user : string; password : string; realm : string }.

(** A dialog object under construction. *)
Record QDialog : Type :=
  { modal : bool; windowFlags : Z; windowTitle : string }.

(** The members of the [Enum] classes nested in [WebPage]. *)
Inductive WebAction : Type := Forward | Back | Reload | Stop.

Inductive RenderProcessTerminationStatus : Type :=
| NormalTerminationStatus
| AbnormalTerminationStatus
| CrashedTerminationStatus
| KilledTerminationStatus.

Inductive WebWindowType : Type :=
| WebBrowserWindow
| WebBrowserTab
| WebDialog
| WebBrowserBackgroundTab.

(** A Python value compared against a member of an [Enum] class whose
    members are of type [E]: a member of that class, or any other object
    (the toolkit's own integer constant, say). *)
Inductive enum_arg (E : Type) : Type :=
| Member (m : E)
| Other (raw : Z).
Arguments Member {E} m.
Arguments Other {E} raw.

(** [x == Class.member] for a plain [Enum]: true for that very member
    only. *)
Definition enum_eq {E : Type} (eqb : E -> E -> bool) (x : enum_arg E) (m : E) : bool :=
  match x with
  | Member m' => eqb m' m
  | Other _ => false
  end.

Definition WebWindowType_eqb (a b : WebWindowType) : bool :=
  match a, b with
  | WebBrowserWindow, WebBrowserWindow
  | WebBrowserTab, WebBrowserTab
  | WebDialog, WebDialog
  | WebBrowserBackgroundTab, WebBrowserBackgroundTab => true
  | _, _ => false
  end.

Definition RenderProcessTerminationStatus_eqb
  (a b : RenderProcessTerminationStatus) : bool :=
  match a, b with
  | NormalTerminationStatus, NormalTerminationStatus
  | AbnormalTerminationStatus, AbnormalTerminationStatus
  | CrashedTerminationStatus, CrashedTerminationStatus
  | KilledTerminationStatus, KilledTerminationStatus => true
  | _, _ => false
  end.

(** The page's standard actions that matter to the context menu
    ([QWebEnginePage.WebAction] of the toolkit, not the four-member
    [WebAction] enum above). *)
Inductive QWebAction : Type :=
| QBack | QForward | QReload | QStop
| QCopy | QPaste | QSavePage
| ViewSource | InspectElement.

Definition QWebAction_eqb (a b : QWebAction) : bool :=
  match a, b with
  | QBack, QBack | QForward, QForward | QReload, QReload | QStop, QStop
  | QCopy, QCopy | QPaste, QPaste | QSavePage, QSavePage
  | ViewSource, ViewSource | InspectElement, InspectElement => true
  | _, _ => false
  end.

(** A callable handed to [signal.connect]: a bound method of the view. *)
Inductive slot : Type :=
| BoundMethod (name : string).

(** What a [QMenu] holds: one of the page's shared [QAction] objects, an
    action created for this menu (its text and what [triggered] is
    connected to), or a separator. *)
Inductive menu_entry : Type :=
| StandardAction (a : QWebAction)
| NewAction (text : string) (triggered : list slot)
| Separator.

Definition menu_entry_eqb (x y : menu_entry) : bool :=
  match x, y with
  | StandardAction a, StandardAction b => QWebAction_eqb a b
  | NewAction s _, NewAction t _ => String.eqb s t
  | Separator, Separator => true
  | _, _ => false
  end.

Definition QMenu : Type := list menu_entry.

(** A view, by where it lives: the n-th tab of the tab container or the
    view of the n-th popup window. *)
Inductive ViewHandle : Type :=
| TabView (n : nat)
| PopupView (n : nat).

(** Modelled from the spec: the Tab Container collaborator
    ([orchid.widgets.windows.DesktopWindow] and its central widget are not
    among the sources).  The spec gives it three operations: a new
    foreground tab, a new background tab, and the current tab, each
    yielding a view handle. *)
Record TabWidget : Type :=
  { tab_count : nat; current_index : nat }.

(** Modelled from the spec: the Popup Window factory
    ([orchid.widgets.windows.PopupWindow] is not among the sources):
    [create(profile)] yields a view handle and a dev-tools-requested
    notification source.  A popup window is kept with its profile and the
    slots connected to that notification; its view is [PopupView n] for
    the n-th popup of the world. *)
Record PopupWindow : Type :=
  { popup_profile : nat; popup_dev_tools_slots : list slot }.

(** The instance attributes of a [WebView]: [_load_progress] is the one the
    source assigns; [icon] is the icon the engine holds for the page, the
    null icon when the page has no favicon; [connected] records the signal
    connections made by [__init__]. *)
Record WebView : Type :=
  { _load_progress : Z;
    icon : QIcon;
    connected : list (string * slot) }.

(** The toolkit base object [super().__init__(parent)] leaves behind. *)
Record QWebEngineView : Type :=
  { base_icon : QIcon }.

(** The inherited [self.icon()].  The engine returns a [QIcon] by value and
    the binding wraps it in a Python object: the answer is an icon, the
    null icon included, and never Python's [None] (the [option] is the
    Python value: [None] or an object). *)
Definition QWebEngineView_icon (self : WebView) : option QIcon :=
  Some (icon self).

(* ===================================================================== *)
(** * 3. The world and the handler monad                                  *)
(* ===================================================================== *)

(** Everything a handler asks of the toolkit, in order. *)
Inductive effect : Type :=
| MessageBox (kind title text : string)
| ExecDialog (d : QDialog)
| SetFeaturePermission (securityOrigin : QUrl) (feature : Z) (policy : PermissionPolicy)
| AcceptHandler (r : QWebEngineRegisterProtocolHandlerRequest)
| RejectHandler (r : QWebEngineRegisterProtocolHandlerRequest)
| SelectCertificate (c : QSslCertificate)
| Emit_favicon_changed (i : QIcon)
| Emit_webaction_state_changed (a : WebAction) (state : bool)
| Emit_dev_tools_requested
| ReloadPage
| PopupMenu (m : QMenu) (globalPos : Z * Z).

Record World : Type :=
  { (* the user in front of the screen *)
    question_reply : string -> string -> StandardButton;
    dialog_reply : QDialog -> DialogCode;
    (* toolkit state *)
    default_window_flags : Z;
    standard_context_menu : QMenu;
    action_text : QWebAction -> string;
    page_profile : nat;
    authenticators : list QAuthenticator;
    (* collaborators *)
    tab_widget : TabWidget;
    popups : list PopupWindow;
    (* the view the handlers are methods of *)
    view : WebView;
    (* what has happened so far, oldest first *)
    trace : list effect }.

Definition with_trace (w : World) (t : list effect) : World :=
  {| question_reply := question_reply w; dialog_reply := dialog_reply w;
     default_window_flags := default_window_flags w;
     standard_context_menu := standard_context_menu w;
     action_text := action_text w; page_profile := page_profile w;
     authenticators := authenticators w; tab_widget := tab_widget w;
     popups := popups w; view := view w; trace := t |}.

Definition with_view (w : World) (v : WebView) : World :=
  {| question_reply := question_reply w; dialog_reply := dialog_reply w;
     default_window_flags := default_window_flags w;
     standard_context_menu := standard_context_menu w;
     action_text := action_text w; page_profile := page_profile w;
     authenticators := authenticators w; tab_widget := tab_widget w;
     popups := popups w; view := v; trace := trace w |}.

Definition with_tab_widget (w : World) (t : TabWidget) : World :=
  {| question_reply := question_reply w; dialog_reply := dialog_reply w;
     default_window_flags := default_window_flags w;
     standard_context_menu := standard_context_menu w;
     action_text := action_text w; page_profile := page_profile w;
     authenticators := authenticators w; tab_widget := t;
     popups := popups w; view := view w; trace := trace w |}.

Definition with_popups (w : World) (p : list PopupWindow) : World :=
  {| question_reply := question_reply w; dialog_reply := dialog_reply w;
     default_window_flags := default_window_flags w;
     standard_context_menu := standard_context_menu w;
     action_text := action_text w; page_profile := page_profile w;
     authenticators := authenticators w; tab_widget := tab_widget w;
     popups := p; view := view w; trace := trace w |}.

Definition with_action_text (w : World) (f : QWebAction -> string) : World :=
  {| question_reply := question_reply w; dialog_reply := dialog_reply w;
     default_window_flags := default_window_flags w;
     standard_context_menu := standard_context_menu w;
     action_text := f; page_profile := page_profile w;
     authenticators := authenticators w; tab_widget := tab_widget w;
     popups := popups w; view := view w; trace := trace w |}.

Definition with_standard_context_menu (w : World) (m : QMenu) : World :=
  {| question_reply := question_reply w; dialog_reply := dialog_reply w;
     default_window_flags := default_window_flags w;
     standard_context_menu := m;
     action_text := action_text w; page_profile := page_profile w;
     authenticators := authenticators w; tab_widget := tab_widget w;
     popups := popups w; view := view w; trace := trace w |}.

Definition with_authenticators (w : World) (a : list QAuthenticator) : World :=
  {| question_reply := question_reply w; dialog_reply := dialog_reply w;
     default_window_flags := default_window_flags w;
     standard_context_menu := standard_context_menu w;
     action_text := action_text w; page_profile := page_profile w;
     authenticators := a; tab_widget := tab_widget w;
     popups := popups w; view := view w; trace := trace w |}.

(** A handler: from a world to its outcome and the world it leaves.  The
    world is returned on both outcomes: what was mutated before a [raise]
    stays mutated. *)
Definition M (A : Type) : Type := World -> result A * World.

Definition ret {A : Type} (a : A) : M A := fun w => (Ok a, w).

Definition bind {A B : Type} (m : M A) (k : A -> M B) : M B :=
  fun w =>
    match m w with
    | (Ok a, w') => k a w'
    | (Raise e, w') => (Raise e, w')
    end.

Definition raise {A : Type} (e : exn) : M A := fun w => (Raise e, w).

Definition gets {A : Type} (f : World -> A) : M A := fun w => (Ok (f w), w).

Definition modify (f : World -> World) : M unit := fun w => (Ok tt, f w).

Definition tell (e : effect) : M unit :=
  modify (fun w => with_trace w (trace w ++ [e])).

Declare Scope handler_scope.
Delimit Scope handler_scope with handler.
Notation "x <- c1 ;; c2" := (bind c1 (fun x => c2))
  (at level 61, c1 at next level, right associativity) : handler_scope.
Notation "c1 ;; c2" := (bind c1 (fun _ => c2))
  (at level 61, right associativity) : handler_scope.
Open Scope handler_scope.

(** [obj.name]: the attribute is looked up on the class of [obj]. *)
Definition getattr (t : pytype) (name : string) : M unit :=
  if hasattr t name then ret tt
  else raise (AttributeError (type_name t) name).

(** [obj.name(...)]: the lookup comes first; [meaning] is what the call
    computes when the class provides the method. *)
Definition call_method {A : Type} (t : pytype) (name : string) (meaning : M A) : M A :=
  getattr t name ;; meaning.

(** Reading a local variable that no executed branch has assigned. *)
Definition read_local {A : Type} (name : string) (v : option A) : M A :=
  match v with
  | Some a => ret a
  | None => raise (UnboundLocalError name)
  end.

(** [self.tr(text)]: no translation catalogue is installed. *)
Definition tr (text : string) : string := text.

(** [str(n)] for an integer, as ["{}".format(n)] prints it. *)
Definition str_of_Z (n : Z) : string := NilZero.string_of_int (Z.to_int n).

Definition newline : string := String (ascii_of_nat 10) EmptyString.

(* ===================================================================== *)
(** * 4. The toolkit's operations                                         *)
(* ===================================================================== *)

(** What a name looked up on a toolkit class is: something that can be
    called, or a member of one of the class's enumerations. *)
Inductive attribute : Type :=
| Function (name : string)
| EnumMember (enum : string).

Definition QMessageBox_icons : list string :=
  ["Critical"; "Information"; "NoIcon"; "Question"; "Warning"].

Definition QMessageBox_buttons : list string :=
  ["Yes"; "No"; "Ok"; "Cancel"].

(** [QMessageBox.name]. *)
Definition QMessageBox_attribute (name : string) : M attribute :=
  getattr t_QMessageBox name ;;
  ret (if existsb (String.eqb name) QMessageBox_icons then EnumMember "Icon"
       else if existsb (String.eqb name) QMessageBox_buttons then EnumMember "StandardButton"
       else Function name).

(** [f(parent, title, text)] for an attribute of [QMessageBox].  An
    enumeration member is not callable.  The static functions take a
    [QWidget] (or [None]) as parent; they show the box and return the button
    pressed: the user's answer for [question], [Ok] for the others. *)
Definition call_message_box (f : attribute) (parent : pytype) (title text : string)
  : M StandardButton :=
  match f with
  | EnumMember enum =>
      raise (TypeError ("'" ++ enum ++ "' object is not callable"))
  | Function kind =>
      if isinstance parent t_QWidget then
        tell (MessageBox kind title text) ;;
        (if String.eqb kind "question"
         then gets (fun w => question_reply w title text)
         else ret ButtonOk)
      else
        raise (TypeError ("argument 1 has unexpected type '" ++ type_name parent ++ "'"))
  end.

(** [QDialog(parent)]: the parent of a dialog is a [QWidget]. *)
Definition QDialog_new (parent : pytype) : M QDialog :=
  if isinstance parent t_QWidget then
    flags <- gets default_window_flags ;;
    ret {| modal := false; windowFlags := flags; windowTitle := "" |}
  else
    raise (TypeError ("argument 1 has unexpected type '" ++ type_name parent ++ "'")).

Definition setModal (d : QDialog) (b : bool) : QDialog :=
  {| modal := b; windowFlags := windowFlags d; windowTitle := windowTitle d |}.

Definition setWindowFlags (d : QDialog) (flags : Z) : QDialog :=
  {| modal := modal d; windowFlags := flags; windowTitle := windowTitle d |}.

Definition setWindowTitle (d : QDialog) (title : string) : QDialog :=
  {| modal := modal d; windowFlags := windowFlags d; windowTitle := title |}.

(** [dialog.exec()]: shows the dialog and waits for the user. *)
Definition exec (d : QDialog) : M DialogCode :=
  tell (ExecDialog d) ;;
  gets (fun w => dialog_reply w d).

(** [auth.setUser(u)] and [auth.setPassword(p)] on the authenticator at
    address [auth]: the only ways a handler can write to a credential
    sink. *)
Fixpoint update_nth {A : Type} (n : nat) (f : A -> A) (l : list A) : list A :=
  match l, n with
  | [], _ => []
  | x :: r, O => f x :: r
  | x :: r, S n' => x :: update_nth n' f r
  end.

Definition setUser (auth : nat) (u : string) : M unit :=
  modify (fun w => with_authenticators w
    (update_nth auth
       (fun a => {| user := u; password := password a; realm := realm a |})
       (authenticators w))).

Definition setPassword (auth : nat) (p : string) : M unit :=
  modify (fun w => with_authenticators w
    (update_nth auth
       (fun a => {| user := user a; password := p; realm := realm a |})
       (authenticators w))).

(** [QVector.at(i)], the Qt accessor [at] is the name of. *)
Definition vector_at {A : Type} (l : list A) (i : Z) : M A :=
  match (if i <? 0 then None else nth_error l (Z.to_nat i)) with
  | Some a => ret a
  | None => raise (IndexError "index out of range")
  end.

(** [d.get(k, default)] on a dictionary given by its items. *)
Definition dict_get {V : Type} (d : list (Z * V)) (k : Z) (default : V) : V :=
  match find (fun kv => Z.eqb (fst kv) k) d with
  | Some kv => snd kv
  | None => default
  end.

(** [signal.connect(f)]: [f] must be callable; Python's [None] is not. *)
Definition connect (slots : list slot) (f : option slot) : M (list slot) :=
  match f with
  | Some s => ret (slots ++ [s])%list
  | None => raise (TypeError "argument 1 has unexpected type 'NoneType'")
  end.

(** The value of a call expression [m()] whose method ends without a
    [return]: the method runs, the value is [None]. *)
Definition returning_None {A : Type} (m : M unit) : M (option A) :=
  m ;; ret None.

(** [action.setText(text)] on an action created for a menu. *)
Definition setText (action : menu_entry) (text : string) : menu_entry :=
  match action with
  | NewAction _ triggered => NewAction text triggered
  | other => other
  end.

(** [action.triggered.connect(f)]. *)
Definition connect_triggered (action : menu_entry) (f : option slot) : M menu_entry :=
  match action with
  | NewAction text triggered =>
      triggered' <- connect triggered f ;;
      ret (NewAction text triggered')
  | other => ret other
  end.

(** [QWidget.insertAction(before, action)]. *)
Definition insertAction (menu : QMenu) (args : list menu_entry) : M QMenu :=
  match args with
  | [before; action] =>
      ret ((fix ins (l : QMenu) : QMenu :=
              match l with
              | [] => [action]
              | x :: r => if menu_entry_eqb x before then action :: x :: r
                          else x :: ins r
              end) menu)
  | _ => raise (TypeError "insertAction(self, QAction, QAction): not enough arguments")
  end.

(** Modelled from the spec: [DesktopWindow().get_central_widget()] answers
    the Tab Container. *)
Definition DesktopWindow_get_central_widget : M TabWidget :=
  gets tab_widget.

(** Modelled from the spec: the Tab Container's three operations.  A new
    foreground tab becomes the current one, a background tab does not. *)
Definition add_tab : M ViewHandle :=
  fun w =>
    let n := tab_count (tab_widget w) in
    (Ok (TabView n),
     with_tab_widget w {| tab_count := S n; current_index := n |}).

Definition add_background_tab : M ViewHandle :=
  fun w =>
    let n := tab_count (tab_widget w) in
    (Ok (TabView n),
     with_tab_widget w
       {| tab_count := S n; current_index := current_index (tab_widget w) |}).

Definition current_tab : M ViewHandle :=
  gets (fun w => TabView (current_index (tab_widget w))).

(** Modelled from the spec: [PopupWindow(profile)] opens a popup window on
    the given profile; nothing is connected to its dev-tools-requested
    notification yet.  The result is the popup's position in [popups]. *)
Definition PopupWindow_new (profile : nat) : M nat :=
  fun w =>
    (Ok (List.length (popups w)),
     with_popups w
       (popups w ++ [{| popup_profile := profile; popup_dev_tools_slots := [] |}])%list).

(** [popup_window.signal_dev_tools_requested.connect(f)]. *)
Definition connect_dev_tools (popup_window : nat) (f : option slot) : M unit :=
  ps <- gets popups ;;
  match nth_error ps popup_window with
  | Some p =>
      slots <- connect (popup_dev_tools_slots p) f ;;
      modify (fun w => with_popups w
        (update_nth popup_window
           (fun q => {| popup_profile := popup_profile q;
                        popup_dev_tools_slots := slots |})
           (popups w)))
  | None => raise (IndexError "no such popup window")
  end.

(** A page handed to [set_page]: its profile and, for each of the
    toolkit's integer action codes, whether that action is enabled. *)
Record WebPageObject : Type :=
  { wp_profile : nat; wp_enabled : Z -> bool }.

(** One of a page's [QAction] objects, as far as [set_page] reads it. *)
Record QAction : Type := { isEnabled : bool }.

(** [page.action(webaction)].  The binding converts the argument to the
    toolkit's [QWebEnginePage.WebAction]: it takes that enumeration's own
    (integer) constants, and no other object; a member of a Python [Enum]
    class is not an integer. *)
Definition QWebEnginePage_action (page : WebPageObject)
  (webaction : enum_arg WebAction) : M QAction :=
  match webaction with
  | Other raw => ret {| isEnabled := wp_enabled page raw |}
  | Member _ => raise (TypeError "argument 1 has unexpected type 'WebAction'")
  end.

Definition with_page_profile (w : World) (profile : nat) : World :=
  {| question_reply := question_reply w; dialog_reply := dialog_reply w;
     default_window_flags := default_window_flags w;
     standard_context_menu := standard_context_menu w;
     action_text := action_text w; page_profile := profile;
     authenticators := authenticators w; tab_widget := tab_widget w;
     popups := popups w; view := view w; trace := trace w |}.

(** [super().setPage(page)]: from now on [self.page()] is [page], and
    [self.page().profile()] its profile. *)
Definition setPage (page : WebPageObject) : M unit :=
  modify (fun w => with_page_profile w (wp_profile page)).

(* ===================================================================== *)
(** * 5. [class WebPage(QWebEnginePage)]                                  *)
(* ===================================================================== *)

Module WebPage.

(** [certificateError(self, error)], lines 50-65.  [self], the page, is
    what the dialog and the message box are given as parent. *)
Definition certificateError (error : QWebEngineCertificateError) : M bool :=
  if isOverridable error then
    dialog <- QDialog_new t_WebPage ;;
    let dialog := setModal dialog true in
    let dialog :=
      setWindowFlags dialog (Z.land (windowFlags dialog) WindowContextHelpButtonHint) in
    let dialog := setWindowTitle dialog (tr "Certificate Error") in
    code <- exec dialog ;;
    ret (DialogCode_eqb code Accepted)
  else
    critical <- QMessageBox_attribute "critical" ;;
    call_message_box critical t_WebPage (tr "Certificate Error") (errorDescription error) ;;
    ret false.

(** [_on_authentication_required(self, request, auth)], lines 67-86.
    [auth] is a reference to the engine's authenticator; the last statement
    binds the local name [auth] to [None]. *)
Definition _on_authentication_required (request : QUrl) (auth : nat) : M unit :=
  dialog <- QDialog_new t_WebPage ;;
  let dialog := setModal dialog true in
  let dialog :=
    setWindowFlags dialog (Z.land (windowFlags dialog) WindowContextHelpButtonHint) in
  let auth : option nat := None in
  ret tt.

(** The dictionary of lines 98-106. *)
Definition features (request : QUrl) : list (Z * string) :=
  [ (Geolocation,
     tr ("Allow " ++ host request ++ " to access your location information?"));
    (MediaAudioCapture,
     tr ("Allow " ++ host request ++ " to access your microphone?"));
    (MediaVideoCapture,
     tr ("Allow " ++ host request ++ " to access your webcam?"));
    (MediaAudioVideoCapture,
     tr ("Allow " ++ host request ++ " to access your microphone and webcam?"));
    (MouseLock,
     tr ("Allow " ++ host request ++ " to lock your mouse cursor?"));
    (DesktopVideoCapture,
     tr ("Allow " ++ host request ++ " to capture video of your desktop?"));
    (DesktopAudioVideoCapture,
     tr ("Allow " ++ host request ++ " to capture audio and video of your desktop?")) ].

Definition setFeaturePermission (securityOrigin : QUrl) (feature : Z)
  (policy : PermissionPolicy) : M unit :=
  tell (SetFeaturePermission securityOrigin feature policy).

(** [_on_feature_permission_requested(self, request, feature, Feature)],
    lines 88-113.  The parameter list reads [feature, Feature], so the
    method has a third positional parameter, which the body never reads.
    [question] is a Python [str]: a value of the dictionary or the literal
    default. *)
Definition _on_feature_permission_requested (request : QUrl) (feature : Z)
  (Feature : Z) : M unit :=
  let question := dict_get (features request) feature "" in
  empty <- call_method t_str "isEmpty" (ret (String.eqb question "")) ;;
  granted <-
    (if negb empty then
       ask <- QMessageBox_attribute "question" ;;
       reply <- call_message_box ask t_WebPage (tr "Permission Request") question ;;
       ret (StandardButton_eqb reply Yes)
     else ret false) ;;
  if granted
  then setFeaturePermission request feature PermissionGrantedByUser
  else setFeaturePermission request feature PermissionDeniedByUser.

(** [_on_proxy_authentication_required(self, request, auth, proxy_host)],
    lines 115-136. *)
Definition _on_proxy_authentication_required (request : QUrl) (auth : nat)
  (proxy_host : string) : M unit :=
  dialog <- QDialog_new t_WebPage ;;
  let dialog := setModal dialog true in
  let dialog :=
    setWindowFlags dialog (Z.land (windowFlags dialog) WindowContextHelpButtonHint) in
  let auth : option nat := None in
  ret tt.

(** [_on_register_protocol_handler_requested(self, request)],
    lines 138-152. *)
Definition _on_register_protocol_handler_requested
  (request : QWebEngineRegisterProtocolHandlerRequest) : M unit :=
  ask <- QMessageBox_attribute "question" ;;
  answer <- call_message_box ask t_WebPage (tr "Permission Request")
              (tr ("Allow " ++ host (origin request) ++ " to open all "
                     ++ scheme request ++ " links?")) ;;
  if StandardButton_eqb answer Yes
  then tell (AcceptHandler request)
  else tell (RejectHandler request).

(** [_on_select_client_certificate(self, selection)], lines 154-161.
    [selection.certificates()] arrives in Python as a [list]. *)
Definition _on_select_client_certificate
  (selection : QWebEngineClientCertificateSelection) : M unit :=
  let certs := certificates selection in
  first <- call_method t_list "at" (vector_at certs 0) ;;
  tell (SelectCertificate first).

End WebPage.

(* ===================================================================== *)
(** * 6. [class WebView(QWebEngineView)]                                  *)
(* ===================================================================== *)

Record QContextMenuEvent : Type := { globalPos : Z * Z }.

Module WebView.

(** [__init__(self, parent)], lines 174-187. *)
Definition __init__ (base : QWebEngineView) : WebView :=
  {| _load_progress := 100;
     icon := base_icon base;
     connected :=
       [ ("loadStarted", BoundMethod "_on_load_started");
         ("loadProgress", BoundMethod "_on_load_progress_changed");
         ("loadFinished", BoundMethod "_on_load_finished");
         ("iconChanged", BoundMethod "_on_favicon_changed");
         ("renderProcessTerminated", BoundMethod "_on_render_process_terminated") ] |}.

(** [self._load_progress = p]. *)
Definition set_load_progress (p : Z) : M unit :=
  modify (fun w => with_view w
    {| _load_progress := p; icon := icon (view w); connected := connected (view w) |}).

(** [get_load_progress(self)], lines 295-302. *)
Definition get_load_progress (self : WebView) : Z := _load_progress self.

(** [get_favicon(self)], lines 315-339. *)
Definition get_favicon (self : WebView) : QIcon :=
  match QWebEngineView_icon self with
  | Some icon => icon
  | None =>
      if _load_progress self <? 0 then standardIcon SP_BrowserStop
      else if _load_progress self <? 100 then standardIcon SP_BrowserReload
      else standardIcon SP_MessageBoxInformation
  end.

(** [_on_load_started(self)], lines 189-194.  The argument of [emit] is
    the call [self.get_icon()]. *)
Definition _on_load_started : M unit :=
  set_load_progress 0 ;;
  i <- call_method t_WebView "get_icon" (gets (fun w => get_favicon (view w))) ;;
  tell (Emit_favicon_changed i).

(** [_on_load_progress_changed(self, progress)], lines 196-203. *)
Definition _on_load_progress_changed (progress : Z) : M unit :=
  set_load_progress progress.

(** [_on_load_finished(self, success)], lines 205-214. *)
Definition _on_load_finished (success : bool) : M unit :=
  set_load_progress (if success then 100 else -1).

(** [_on_favicon_changed(self, icon)], lines 216-223. *)
Definition _on_favicon_changed (icon : QIcon) : M unit :=
  i <- call_method t_WebView "get_icon" (gets (fun w => get_favicon (view w))) ;;
  tell (Emit_favicon_changed i).

(** [self.reload()]. *)
Definition reload : M unit := tell ReloadPage.

(** [_on_render_process_terminated(self, status, status_code)],
    lines 225-247.  [msg] is assigned in the branches of the [if] chain
    only.  In the call of line 244 the callee [QMessageBox.Question] is
    evaluated first, then the arguments, then the call is made;
    [self.window()] is a widget. *)
Definition _on_render_process_terminated
  (status : enum_arg RenderProcessTerminationStatus) (status_code : Z) : M unit :=
  let equals m := enum_eq RenderProcessTerminationStatus_eqb status m in
  let msg : option string :=
    if equals NormalTerminationStatus then Some (tr "Render process normal exit.")
    else if equals AbnormalTerminationStatus then Some (tr "Render process abnormal exit.")
    else if equals CrashedTerminationStatus then Some (tr "Render process crashed.")
    else if equals KilledTerminationStatus then Some (tr "Render process killed.")
    else None in
  callee <- QMessageBox_attribute "Question" ;;
  msg <- read_local "msg" msg ;;
  reply <- call_message_box callee t_QWidget msg
             (tr ("Render process exited with code: " ++ str_of_Z status_code
                    ++ newline ++ "Do you want to reload the page?")) ;;
  if StandardButton_eqb reply Yes then reload else ret tt.

(** [_on_webaction_changed(self, webaction, state)], lines 249-258. *)
Definition _on_webaction_changed (webaction : WebAction) (state : bool) : M unit :=
  tell (Emit_webaction_state_changed webaction state).

(** [_on_dev_tools_requested(self)], lines 260-264. *)
Definition _on_dev_tools_requested : M unit :=
  tell Emit_dev_tools_requested.

(** [createWindow(self, window_type)], lines 341-369.  The result is a
    view or Python's [None].  [tab_widget] of line 351 is the tab container
    the three tab operations act on.  The argument of [connect] in line 365
    is the call [self._on_dev_tools_requested()]. *)
Definition createWindow (window_type : enum_arg WebWindowType)
  : M (option ViewHandle) :=
  let equals m := enum_eq WebWindowType_eqb window_type m in
  tab_widget <- DesktopWindow_get_central_widget ;;
  if equals WebBrowserTab then
    v <- add_tab ;; ret (Some v)
  else if equals WebBrowserBackgroundTab then
    v <- add_background_tab ;; ret (Some v)
  else if equals WebBrowserWindow then
    v <- current_tab ;; ret (Some v)
  else if equals WebDialog then
    profile <- gets page_profile ;;
    popup_window <- PopupWindow_new profile ;;
    handler <- returning_None _on_dev_tools_requested ;;
    connect_dev_tools popup_window handler ;;
    ret (Some (PopupView popup_window))
  else
    ret None.

(** [action.setText(text)] on one of the page's shared actions. *)
Definition set_action_text (a : QWebAction) (text : string) : M unit :=
  modify (fun w => with_action_text w
    (fun b => if QWebAction_eqb b a then text else action_text w b)).

(** [contextMenuEvent(self, event)], lines 371-397.  [menu] is the menu
    [createStandardContextMenu()] built; [x not in actions] compares
    against its entries. *)
Definition contextMenuEvent (event : QContextMenuEvent) : M unit :=
  menu <- gets standard_context_menu ;;
  let actions := menu in
  let webaction := StandardAction InspectElement in
  menu <-
    (if negb (existsb (menu_entry_eqb webaction) actions) then
       menu <-
         (if negb (existsb (menu_entry_eqb (StandardAction ViewSource)) actions)
          then call_method t_QMenu "addSeperator" (ret (menu ++ [Separator])%list)
          else ret menu) ;;
       let action := NewAction "" [] in
       let action := setText action (tr "Open inspector in new window") in
       action <- connect_triggered action (Some (BoundMethod "_on_dev_tools_requested")) ;;
       call_method t_QMenu "insertAction" (insertAction menu [action])
     else
       set_action_text InspectElement (tr "Inspect element") ;;
       ret menu) ;;
  tell (PopupMenu menu (globalPos event)).

(** [set_page(self, page)], lines 266-293.  The same three statements
    are written out for [Forward], [Back], [Reload] and [Stop], in this
    order; [relay] is one such block.  [webaction] is the member of the
    [WebAction] class of lines 16-20, and the argument of [connect] is the
    call [self._on_webaction_changed(webaction, action.isEnabled())]. *)
Definition set_page (page : WebPageObject) : M unit :=
  let relay (webaction : WebAction) : M unit :=
    action <- QWebEnginePage_action page (Member webaction) ;;
    handler <- returning_None (_on_webaction_changed webaction (isEnabled action)) ;;
    connect [] handler ;;
    ret tt in
  relay Forward ;;
  relay Back ;;
  relay Reload ;;
  relay Stop ;;
  setPage page.

End WebView.

(* ===================================================================== *)
(** * 7. Event sequences and sample worlds                                *)
(* ===================================================================== *)

(** The load notifications the engine delivers to a view. *)
Inductive load_event : Type :=
| loadStarted
| loadProgress (progress : Z)
| loadFinished (success : bool).

(** The slot [__init__] connected to each of them. *)
Definition deliver (e : load_event) : M unit :=
  match e with
  | loadStarted => WebView._on_load_started
  | loadProgress p => WebView._on_load_progress_changed p
  | loadFinished ok => WebView._on_load_finished ok
  end.

(** The world a handler leaves, whether it returned or raised. *)
Definition after {A : Type} (m : M A) (w : World) : World := snd (m w).

(** How the handler ended: with a value, or with the exception raised. *)
Definition outcome {A : Type} (m : M A) (w : World) : result A := fst (m w).

(** The load progress stored after each event of a sequence, in order. *)
Fixpoint progress_after (es : list load_event) (w : World) : list Z :=
  match es with
  | [] => []
  | e :: rest =>
      let w' := after (deliver e) w in
      WebView.get_load_progress (view w') :: progress_after rest w'
  end.

(** One navigation: started, N progress reports, finished. *)
Definition load_cycle (ps : list Z) (success : bool) : list load_event :=
  (loadStarted :: map loadProgress ps ++ [loadFinished success])%list.

Definition non_decreasing (l : list Z) : Prop :=
  forall i j : nat, (i <= j)%nat -> (j < List.length l)%nat ->
    nth i l 0 <= nth j l 0.

(** A credential sink on which no credentials are set. *)
Definition unset (a : QAuthenticator) : Prop :=
  user a = "" /\ password a = "".

(** The authenticator a reference points to. *)
Definition sink (w : World) (auth : nat) : option QAuthenticator :=
  nth_error (authenticators w) auth.

(** A world for examples: the user declines everything, the context menu
    holds back, reload and "view source", one tab is open, a fresh view on
    a page without favicon. *)
Definition sample_world : World :=
  {| question_reply := fun _ _ => No;
     dialog_reply := fun _ => Rejected;
     default_window_flags := 0;
     standard_context_menu :=
       [StandardAction QBack; StandardAction QReload; StandardAction ViewSource];
     action_text := fun _ => "";
     page_profile := O;
     authenticators := [{| user := ""; password := ""; realm := "intranet" |}];
     tab_widget := {| tab_count := 1; current_index := 0 |};
     popups := [];
     view := WebView.__init__ {| base_icon := NullIcon |};
     trace := [] |}.

(** The same world with a user who agrees to everything. *)
Definition agreeing_world : World :=
  {| question_reply := fun _ _ => Yes;
     dialog_reply := fun _ => Accepted;
     default_window_flags := default_window_flags sample_world;
     standard_context_menu := [StandardAction QBack; StandardAction QReload];
     action_text := action_text sample_world;
     page_profile := page_profile sample_world;
     authenticators := authenticators sample_world;
     tab_widget := tab_widget sample_world;
     popups := popups sample_world;
     view := view sample_world;
     trace := [] |}.

(** The world after a whole sequence of load events. *)
Fixpoint run_events (es : list load_event) (w : World) : World :=
  match es with
  | [] => w
  | e :: rest => run_events rest (after (deliver e) w)
  end.

(** The keys of the dictionary of lines 98-106. *)
Definition feature_keys : list Z :=
  [Geolocation; MediaAudioCapture; MediaVideoCapture; MediaAudioVideoCapture;
   MouseLock; DesktopVideoCapture; DesktopAudioVideoCapture].

(** ** [orchid/__init__.py]: choosing the window manager on import *)

Module orchid.

Inductive WindowsManager : Type :=
| Win32WindowsManager
| XWindowsManager.

(** How importing the package ends: with [WindowsManager] bound to one of
    the two classes, or with [exit(status)] after a critical log record. *)
Inductive import_result : Type :=
| Imported (wm : WindowsManager)
| SystemExit (status : Z) (critical : string).

(** Lines 8-15, for what [platform.system()] answers. *)
Definition import_package (system_name : string) : import_result :=
  if String.eqb system_name "Windows" then Imported Win32WindowsManager
  else if String.eqb system_name "Linux" then Imported XWindowsManager
  else SystemExit 1 "Failure to manage unknown OS.".

End orchid.

(* ===================================================================== *)
(** * 8. Laws of the handler monad and facts about the classes            *)
(* ===================================================================== *)

Lemma bind_Ok {A B : Type} (m : M A) (k : A -> M B) (w w' : World) (a : A) :
  m w = (Ok a, w') -> bind m k w = k a w'.
Proof. intros H. unfold bind. rewrite H. reflexivity. Qed.

Lemma bind_Raise {A B : Type} (m : M A) (k : A -> M B) (w w' : World) (e : exn) :
  m w = (Raise e, w') -> bind m k w = (Raise e, w').
Proof. intros H. unfold bind. rewrite H. reflexivity. Qed.

Lemma getattr_missing (t : pytype) (name : string) (w : World) :
  hasattr t name = false ->
  getattr t name w = (Raise (AttributeError (type_name t) name), w).
Proof. intros H. unfold getattr. rewrite H. reflexivity. Qed.

Lemma getattr_present (t : pytype) (name : string) (w : World) :
  hasattr t name = true -> getattr t name w = (Ok tt, w).
Proof. intros H. unfold getattr. rewrite H. reflexivity. Qed.

Lemma call_method_missing {A : Type} (t : pytype) (name : string) (meaning : M A)
  (w : World) :
  hasattr t name = false ->
  call_method t name meaning w = (Raise (AttributeError (type_name t) name), w).
Proof.
  intros H. unfold call_method.
  apply bind_Raise. now apply getattr_missing.
Qed.

Lemma call_method_present {A : Type} (t : pytype) (name : string) (meaning : M A)
  (w : World) :
  hasattr t name = true -> call_method t name meaning w = meaning w.
Proof.
  intros H. unfold call_method.
  rewrite (bind_Ok _ _ w w tt); [reflexivity | now apply getattr_present].
Qed.

(** A Python [str] has [isascii], [isdigit], ... but no [isEmpty]. *)
Lemma str_has_no_isEmpty : hasattr t_str "isEmpty" = false.
Proof. reflexivity. Qed.

(** A Python [list] is indexed with brackets; it has no [at]. *)
Lemma list_has_no_at : hasattr t_list "at" = false.
Proof. reflexivity. Qed.

(** The view defines [get_favicon] and inherits [icon]; neither it nor its
    bases define [get_icon]. *)
Lemma WebView_has_no_get_icon :
  hasattr t_WebView "get_icon" = false /\
  hasattr t_WebView "get_favicon" = true /\
  hasattr t_WebView "icon" = true.
Proof. repeat split. Qed.

(** The menu's method is spelled [addSeparator]. *)
Lemma QMenu_has_no_addSeperator :
  hasattr t_QMenu "addSeperator" = false /\ hasattr t_QMenu "addSeparator" = true.
Proof. split; reflexivity. Qed.

(** A page is a [QObject], not a widget; a view is a widget. *)
Lemma page_is_not_a_widget :
  isinstance t_WebPage t_QWidget = false /\ isinstance t_WebView t_QWidget = true.
Proof. split; reflexivity. Qed.

(** [QMessageBox.question] is a function, [QMessageBox.Question] a member
    of the [Icon] enumeration. *)
Lemma QMessageBox_question_and_Question (w : World) :
  QMessageBox_attribute "question" w = (Ok (Function "question"), w) /\
  QMessageBox_attribute "Question" w = (Ok (EnumMember "Icon"), w).
Proof. split; reflexivity. Qed.

Lemma update_nth_length {A : Type} (f : A -> A) (l : list A) (n : nat) :
  List.length (update_nth n f l) = List.length l.
Proof.
  revert n. induction l as [|x r IH]; intros [|n]; simpl; auto.
Qed.

Lemma nth_error_snoc {A : Type} (l : list A) (x : A) :
  nth_error (l ++ [x]) (List.length l) = Some x.
Proof.
  induction l as [|y r IH]; simpl; auto.
Qed.

Lemma update_nth_snoc {A : Type} (f : A -> A) (l : list A) (x : A) :
  update_nth (List.length l) f (l ++ [x]) = (l ++ [f x])%list.
Proof.
  induction l as [|y r IH]; simpl; [reflexivity | now rewrite IH].
Qed.

(* ===================================================================== *)
(** * 9. The view: favicon and load progress                              *)
(* ===================================================================== *)

(** C1, on the code.  [get_favicon] returns what [self.icon()] answers,
    whatever the stored load progress: the test of line 326,
    [icon is not None], holds for every answer of the toolkit, the null
    icon of a page without favicon included.  So a native favicon is
    returned as it is, but a page without favicon gets the null icon and
    none of the three status icons of lines 330-339. *)
Theorem get_favicon_never_falls_back (self : WebView) :
  WebView.get_favicon self = icon self /\
  (icon self = NullIcon ->
     forall sp : StandardPixmap, WebView.get_favicon self <> standardIcon sp).
Proof.
  assert (H : WebView.get_favicon self = icon self).
  { unfold WebView.get_favicon, QWebEngineView_icon. reflexivity. }
  split; [exact H|].
  intros Hnull sp. rewrite H, Hnull. discriminate.
Qed.

(** The three progresses the specification lists as tests, on a page
    without favicon, and a native favicon after a failed load. *)
Example get_favicon_samples :
  let v p i := {| _load_progress := p; icon := i; connected := [] |} in
  WebView.get_favicon (v (-1) NullIcon) = NullIcon /\
  WebView.get_favicon (v 45 NullIcon) = NullIcon /\
  WebView.get_favicon (v 100 NullIcon) = NullIcon /\
  WebView.get_favicon (v (-1) (Favicon 7)) = Favicon 7.
Proof. repeat split. Qed.

(** The progress handlers store what they are given and end normally. *)
Lemma _on_load_progress_changed_stores (p : Z) (w : World) :
  WebView._on_load_progress_changed p w =
    (Ok tt,
     with_view w {| _load_progress := p; icon := icon (view w);
                    connected := connected (view w) |}).
Proof. reflexivity. Qed.

Lemma _on_load_finished_stores (success : bool) (w : World) :
  WebView._on_load_finished success w =
    (Ok tt,
     with_view w {| _load_progress := if success then 100 else -1;
                    icon := icon (view w); connected := connected (view w) |}).
Proof. reflexivity. Qed.

(** [_on_load_started] has stored 0 by the time it looks up [get_icon]. *)
Lemma _on_load_started_stores (w : World) :
  WebView._on_load_started w =
    (Raise (AttributeError "WebView" "get_icon"),
     with_view w {| _load_progress := 0; icon := icon (view w);
                    connected := connected (view w) |}).
Proof.
  unfold WebView._on_load_started.
  rewrite (bind_Ok _ _ w _ tt (eq_refl : WebView.set_load_progress 0 w = _)).
  apply bind_Raise.
  exact (call_method_missing t_WebView "get_icon" _ _ (proj1 WebView_has_no_get_icon)).
Qed.

Lemma progress_after_reports (ps : list Z) (rest : list load_event) (w : World) :
  exists w' : World,
    progress_after (map loadProgress ps ++ rest) w = (ps ++ progress_after rest w')%list.
Proof.
  revert w. induction ps as [|p ps IH]; intros w.
  - exists w. reflexivity.
  - destruct (IH (after (deliver (loadProgress p)) w)) as [w' Hw'].
    exists w'.
    change (progress_after (map loadProgress (p :: ps) ++ rest) w)
      with (WebView.get_load_progress (view (after (deliver (loadProgress p)) w))
              :: progress_after (map loadProgress ps ++ rest)
                   (after (deliver (loadProgress p)) w)).
    rewrite Hw'. reflexivity.
Qed.

Lemma progress_after_finish (success : bool) (w : World) :
  progress_after [loadFinished success] w = [if success then 100 else -1].
Proof. reflexivity. Qed.

(** C2, as the code has it.  Over one navigation (started, any number of
    progress reports, finished): the stored progress is 0 right after
    load-started; a progress report [P] stores [P] and changes nothing
    else in the world; the values stored after the reports are exactly
    the values reported, so they are non-decreasing exactly when the
    reported values, starting from 0, are; and after load-finished the
    stored progress is 100 on success and -1 otherwise. *)
Theorem load_cycle_stored_progress (w : World) (ps : list Z) (success : bool) :
  WebView.get_load_progress (view (after WebView._on_load_started w)) = 0 /\
  (forall (p : Z) (w' : World),
      WebView._on_load_progress_changed p w' =
        (Ok tt,
         with_view w' {| _load_progress := p; icon := icon (view w');
                         connected := connected (view w') |})) /\
  progress_after (load_cycle ps success) w =
    (0 :: ps ++ [if success then 100 else -1])%list /\
  (non_decreasing (removelast (progress_after (load_cycle ps success) w)) <->
   non_decreasing (0 :: ps)).
Proof.
  assert (Hall : progress_after (load_cycle ps success) w =
                 (0 :: ps ++ [if success then 100 else -1])%list).
  { unfold load_cycle. cbn [progress_after deliver].
    unfold after at 1. rewrite _on_load_started_stores. cbn [snd].
    f_equal.
    destruct (progress_after_reports ps [loadFinished success]
                (after WebView._on_load_started w)) as [w' Hw'].
    unfold after in Hw' at 1. rewrite _on_load_started_stores in Hw'.
    cbn [snd] in Hw'. unfold after at 1. rewrite _on_load_started_stores. cbn [snd].
    rewrite Hw'. now rewrite progress_after_finish. }
  split; [|split; [|split]].
  - unfold after. now rewrite _on_load_started_stores.
  - intros p w'. apply _on_load_progress_changed_stores.
  - exact Hall.
  - rewrite Hall.
    change (0 :: ps ++ [if success then 100 else -1])%list
      with ((0 :: ps) ++ [if success then 100 else -1])%list.
    rewrite removelast_last. reflexivity.
Qed.

(** C2, as stated, fails: the view stores whatever the engine reports, so
    a report of 50 followed by a report of 30 makes the stored progress
    go down before the load has finished. *)
Lemma progress_can_decrease :
  progress_after (load_cycle [50; 30] true) sample_world = [0; 50; 30; 100] /\
  ~ non_decreasing (removelast (progress_after (load_cycle [50; 30] true) sample_world)).
Proof.
  split; [reflexivity|].
  intros H. specialize (H 1%nat 2%nat). cbn in H. lia.
Qed.

(** C10, on the code.  A freshly constructed view reports a load progress
    of 100.  Its [get_favicon], though, is whatever icon the toolkit holds
    for it: on a fresh view without favicon that is the null icon, not the
    informational default icon (and not the loading icon either). *)
Theorem fresh_view_progress_and_icon (base : QWebEngineView) :
  WebView.get_load_progress (WebView.__init__ base) = 100 /\
  WebView.get_favicon (WebView.__init__ base) = base_icon base /\
  (base_icon base = NullIcon ->
     WebView.get_favicon (WebView.__init__ base)
       <> standardIcon SP_MessageBoxInformation).
Proof.
  assert (H : WebView.get_favicon (WebView.__init__ base) = base_icon base).
  { unfold WebView.get_favicon, QWebEngineView_icon, WebView.__init__. reflexivity. }
  split; [reflexivity | split; [exact H|]].
  intros Hnull. rewrite H, Hnull. discriminate.
Qed.

(* ===================================================================== *)
(** * 10. The page: permissions, certificates, credentials                *)
(* ===================================================================== *)

(** C3, on the code.  Whatever feature is requested, mapped or not, the
    handler stops at [question.isEmpty()]: [question] is a Python [str],
    the lookup raises [AttributeError], and the world is left as it was.
    No prompt is displayed, and no decision, deny included, is written
    back. *)
Theorem feature_permission_request_raises (request : QUrl) (feature Feature : Z)
  (w : World) :
  WebPage._on_feature_permission_requested request feature Feature w
    = (Raise (AttributeError "str" "isEmpty"), w).
Proof.
  unfold WebPage._on_feature_permission_requested.
  apply bind_Raise.
  exact (call_method_missing t_str "isEmpty" _ w str_has_no_isEmpty).
Qed.

(** The request C3 speaks of: [Notifications] is not a key of the
    dictionary, [question] is the default [""], and the deny decision is
    not in the trace afterwards. *)
Example unmapped_feature_is_not_denied :
  let request := {| host := "example.org" |} in
  dict_get (WebPage.features request) Notifications "" = "" /\
  trace (after (WebPage._on_feature_permission_requested request Notifications 0)
           sample_world) = [] /\
  outcome (WebPage._on_feature_permission_requested request Notifications 0)
    sample_world = Raise (AttributeError "str" "isEmpty").
Proof. repeat split. Qed.

(** C5, on the code.  [selection.certificates()] is a Python [list], which
    has no [at]: for every selection, of any length, the handler raises
    [AttributeError] and selects no certificate. *)
Theorem select_client_certificate_raises
  (selection : QWebEngineClientCertificateSelection) (w : World) :
  WebPage._on_select_client_certificate selection w
    = (Raise (AttributeError "list" "at"), w).
Proof.
  unfold WebPage._on_select_client_certificate.
  apply bind_Raise.
  exact (call_method_missing t_list "at" _ w list_has_no_at).
Qed.

(** With three certificates on offer, none is selected. *)
Example three_certificates_none_selected :
  after (WebPage._on_select_client_certificate
           {| certificates := [{| serial := 1 |}; {| serial := 2 |}; {| serial := 3 |}] |})
    sample_world = sample_world.
Proof. reflexivity. Qed.

(** C6, on the code.  The page hands itself to [QDialog] and to
    [QMessageBox.critical] as the parent widget; it is not a widget, so
    for every certificate error, overridable or not, the call raises
    [TypeError]: nothing is shown and no decision is returned. *)
Theorem certificateError_raises (error : QWebEngineCertificateError) (w : World) :
  WebPage.certificateError error w
    = (Raise (TypeError "argument 1 has unexpected type 'WebPage'"), w).
Proof.
  unfold WebPage.certificateError.
  destruct (isOverridable error).
  - apply bind_Raise. unfold QDialog_new.
    now rewrite (proj1 page_is_not_a_widget).
  - rewrite (bind_Ok _ _ w w (Function "critical")) by reflexivity.
    apply bind_Raise. unfold call_message_box.
    now rewrite (proj1 page_is_not_a_widget).
Qed.

(** A world in which the engine's authenticator already carries
    credentials. *)
Lemma populated_world_sink :
  sink (after (setUser 0 "alice" ;; setPassword 0 "secret") sample_world) 0
    = Some {| user := "alice"; password := "secret"; realm := "intranet" |}.
Proof. reflexivity. Qed.

(** C9, on the code.  Both authentication handlers hand the page to
    [QDialog] as parent widget (lines 76 and 126), which it is not: for
    every request and every sink they raise [TypeError] there and leave
    the world as it was.  The statement [auth = None] of lines 86 and 136
    is not reached (and would bind the local name only); nothing clears
    the sink. *)
Theorem authentication_handlers_raise (request : QUrl) (auth : nat)
  (proxy_host : string) (w : World) :
  WebPage._on_authentication_required request auth w
    = (Raise (TypeError "argument 1 has unexpected type 'WebPage'"), w) /\
  WebPage._on_proxy_authentication_required request auth proxy_host w
    = (Raise (TypeError "argument 1 has unexpected type 'WebPage'"), w).
Proof.
  split.
  - unfold WebPage._on_authentication_required.
    apply bind_Raise. unfold QDialog_new.
    now rewrite (proj1 page_is_not_a_widget).
  - unfold WebPage._on_proxy_authentication_required.
    apply bind_Raise. unfold QDialog_new.
    now rewrite (proj1 page_is_not_a_widget).
Qed.

(** A sink that arrives with credentials on it still carries them after
    either handler. *)
Example populated_sink_stays_populated :
  let w := after (setUser 0 "alice" ;; setPassword 0 "secret") sample_world in
  let request := {| host := "example.org" |} in
  let alice := {| user := "alice"; password := "secret"; realm := "intranet" |} in
  sink (after (WebPage._on_authentication_required request 0) w) 0 = Some alice /\
  sink (after (WebPage._on_proxy_authentication_required request 0 "proxy.local") w) 0
    = Some alice /\
  ~ unset alice.
Proof.
  repeat split. intros [Huser _]. discriminate Huser.
Qed.

(* ===================================================================== *)
(** * 11. The view: render process, new windows, context menu             *)
(* ===================================================================== *)

(** C7, on the code.  For each of the four termination statuses the cause
    string is chosen, but the prompt is never shown: line 244 calls
    [QMessageBox.Question], a member of the [Icon] enumeration, where the
    page's handlers call the function [QMessageBox.question].  The call
    raises [TypeError]; the world is left as it was, so the page is not
    reloaded, whatever the user would have answered. *)
Theorem render_process_terminated_raises (status : RenderProcessTerminationStatus)
  (status_code : Z) (w : World) :
  WebView._on_render_process_terminated (Member status) status_code w
    = (Raise (TypeError "'Icon' object is not callable"), w).
Proof.
  unfold WebView._on_render_process_terminated.
  rewrite (bind_Ok _ _ w w (EnumMember "Icon"))
    by exact (proj2 (QMessageBox_question_and_Question w)).
  destruct status; reflexivity.
Qed.

(** A crash with exit code 139 in front of a user who would answer Yes:
    no message box, no reload. *)
Example crashed_page_is_not_reloaded :
  trace (after (WebView._on_render_process_terminated
                  (Member CrashedTerminationStatus) 139) agreeing_world) = [] /\
  str_of_Z 139 = "139".
Proof. split; reflexivity. Qed.

(** A status that is not a member of the view's own enumeration (the
    toolkit's integer constant, say) matches no branch, and [msg] is read
    unassigned. *)
Lemma render_process_terminated_unbound (raw status_code : Z) (w : World) :
  WebView._on_render_process_terminated (Other raw) status_code w
    = (Raise (UnboundLocalError "msg"), w).
Proof. reflexivity. Qed.

(** C4, on the code, for [WebDialog].  The popup window is created on the
    page's profile, but line 365 passes [connect] the result of calling
    [_on_dev_tools_requested] instead of the method: the view's own
    dev-tools-requested notification fires at once, [connect] is handed
    [None] and raises [TypeError].  Nothing is connected to the popup's
    notification and no view is returned. *)
Theorem createWindow_dialog_raises (w : World) :
  WebView.createWindow (Member WebDialog) w
    = (Raise (TypeError "argument 1 has unexpected type 'NoneType'"),
       with_trace
         (with_popups w
            (popups w ++ [{| popup_profile := page_profile w;
                             popup_dev_tools_slots := [] |}]))
         (trace w ++ [Emit_dev_tools_requested])).
Proof.
  unfold WebView.createWindow. cbn [enum_eq WebWindowType_eqb].
  rewrite (bind_Ok _ _ w w (tab_widget w)) by reflexivity.
  unfold bind at 1. cbn [gets].
  unfold bind at 1. cbn [PopupWindow_new].
  unfold bind at 1.
  unfold returning_None, WebView._on_dev_tools_requested, tell, modify.
  unfold bind at 1. cbn [ret].
  apply bind_Raise.
  unfold connect_dev_tools. unfold bind at 1. cbn [gets popups with_trace with_popups].
  rewrite nth_error_snoc.
  apply bind_Raise. reflexivity.
Qed.

(** The other branches of [createWindow]: a foreground tab, a background
    tab, the current tab without any new surface, and [None] for a value
    that is no member of [WebWindowType]. *)
Lemma createWindow_tabs (w : World) :
  WebView.createWindow (Member WebBrowserTab) w
    = (Ok (Some (TabView (tab_count (tab_widget w)))),
       with_tab_widget w {| tab_count := S (tab_count (tab_widget w));
                            current_index := tab_count (tab_widget w) |}) /\
  WebView.createWindow (Member WebBrowserBackgroundTab) w
    = (Ok (Some (TabView (tab_count (tab_widget w)))),
       with_tab_widget w {| tab_count := S (tab_count (tab_widget w));
                            current_index := current_index (tab_widget w) |}) /\
  WebView.createWindow (Member WebBrowserWindow) w
    = (Ok (Some (TabView (current_index (tab_widget w)))), w) /\
  (forall raw : Z, WebView.createWindow (Other raw) w = (Ok None, w)).
Proof. repeat split. Qed.

(** C8, on the code.  When "Inspect Element" is in the standard menu it is
    relabelled and the menu is shown with its entries unchanged.  When it
    is not, no entry is inserted and no menu is shown: with "View Source"
    absent too, line 386 calls [menu.addSeperator()], a name [QMenu] does
    not have; with "View Source" present, line 392 calls
    [menu.insertAction(action)] without the [before] argument. *)
Theorem contextMenuEvent_outcome (event : QContextMenuEvent) (w : World) :
  let present a := existsb (menu_entry_eqb (StandardAction a)) (standard_context_menu w) in
  WebView.contextMenuEvent event w =
    if present InspectElement then
      (Ok tt,
       with_trace
         (with_action_text w
            (fun b => if QWebAction_eqb b InspectElement then "Inspect element"
                      else action_text w b))
         (trace w ++ [PopupMenu (standard_context_menu w) (globalPos event)]))
    else if present ViewSource then
      (Raise (TypeError "insertAction(self, QAction, QAction): not enough arguments"), w)
    else
      (Raise (AttributeError "QMenu" "addSeperator"), w).
Proof.
  intros present. subst present. cbv beta.
  unfold WebView.contextMenuEvent.
  rewrite (bind_Ok _ _ w w (standard_context_menu w)) by reflexivity.
  destruct (existsb (menu_entry_eqb (StandardAction InspectElement))
              (standard_context_menu w)); cbn [negb].
  - reflexivity.
  - destruct (existsb (menu_entry_eqb (StandardAction ViewSource))
                (standard_context_menu w)); cbn [negb]; apply bind_Raise.
    + rewrite (bind_Ok _ _ w w (standard_context_menu w)) by reflexivity.
      rewrite (bind_Ok _ _ w w
                 (NewAction "Open inspector in new window"
                    [BoundMethod "_on_dev_tools_requested"])) by reflexivity.
      rewrite call_method_present by reflexivity.
      reflexivity.
    + apply bind_Raise.
      exact (call_method_missing t_QMenu "addSeperator" _ w
               (proj1 QMenu_has_no_addSeperator)).
Qed.

(** Both failing menus, and a menu that already has the entry. *)
Example contextMenuEvent_samples :
  let event := {| globalPos := (10, 20) |} in
  let inspectable := [StandardAction QBack; StandardAction InspectElement] in
  let w := with_standard_context_menu sample_world inspectable in
  outcome (WebView.contextMenuEvent event) sample_world
    = Raise (TypeError "insertAction(self, QAction, QAction): not enough arguments") /\
  outcome (WebView.contextMenuEvent event) agreeing_world
    = Raise (AttributeError "QMenu" "addSeperator") /\
  trace (after (WebView.contextMenuEvent event) agreeing_world) = [] /\
  outcome (WebView.contextMenuEvent event) w = Ok tt /\
  trace (after (WebView.contextMenuEvent event) w) = [PopupMenu inspectable (10, 20)] /\
  action_text (after (WebView.contextMenuEvent event) w) InspectElement
    = "Inspect element".
Proof. repeat split. Qed.

(** An argument that is no member of [WebPage.WebWindowType], the
    toolkit's own integer constants included, compares unequal to all four
    members: [createWindow] answers [None]. *)
Theorem createWindow_unknown_type (raw : Z) (w : World) :
  outcome (WebView.createWindow (Other raw)) w = Ok None.
Proof.
  unfold outcome, WebView.createWindow.
  rewrite (bind_Ok _ _ w w (tab_widget w)) by reflexivity.
  cbn [enum_eq]. reflexivity.
Qed.

(* ===================================================================== *)
(** * 12. Load events in sequence                                         *)
(* ===================================================================== *)

Lemma run_events_app (es es' : list load_event) (w : World) :
  run_events (es ++ es') w = run_events es' (run_events es w).
Proof.
  revert w. induction es as [|e es IH]; intros w; [reflexivity|].
  cbn [app run_events]. apply IH.
Qed.

(** What one load event leaves behind: the world it found, with the
    stored progress replaced. *)
Lemma after_deliver (e : load_event) (w : World) :
  after (deliver e) w =
    with_view w
      {| _load_progress :=
           match e with
           | loadStarted => 0
           | loadProgress p => p
           | loadFinished success => if success then 100 else -1
           end;
         icon := icon (view w);
         connected := connected (view w) |}.
Proof.
  destruct e as [|p|success]; unfold after, deliver.
  - now rewrite _on_load_started_stores.
  - now rewrite _on_load_progress_changed_stores.
  - now rewrite _on_load_finished_stores.
Qed.

Lemma with_view_same (w : World) :
  with_view w {| _load_progress := _load_progress (view w);
                 icon := icon (view w); connected := connected (view w) |} = w.
Proof. destruct w as [? ? ? ? ? ? ? ? ? [? ? ?] ?]. reflexivity. Qed.

(** X3.  Whatever came before, the progress stored after a sequence of
    load events is the one its last event assigns: 0 for load-started, the
    reported value for load-progress, 100 or -1 for load-finished.  No
    event reads the value it replaces. *)
Theorem last_load_event_decides_progress (es : list load_event) (e : load_event)
  (w : World) :
  WebView.get_load_progress (view (run_events (es ++ [e]) w)) =
    match e with
    | loadStarted => 0
    | loadProgress p => p
    | loadFinished success => if success then 100 else -1
    end.
Proof.
  rewrite run_events_app. cbn [run_events].
  rewrite after_deliver. reflexivity.
Qed.

Lemma run_events_frame (es : list load_event) (w : World) :
  run_events es w =
    with_view w
      {| _load_progress := WebView.get_load_progress (view (run_events es w));
         icon := icon (view w);
         connected := connected (view w) |}.
Proof.
  revert w. induction es as [|e es IH]; intros w.
  - cbn [run_events]. unfold WebView.get_load_progress.
    symmetry. apply with_view_same.
  - cbn [run_events].
    set (w1 := after (deliver e) w) in *.
    rewrite (IH w1) at 1.
    unfold w1 at 1 3 4. rewrite after_deliver. reflexivity.
Qed.

(** X5.  A sequence of load events changes the stored progress and nothing
    else: what [icon()] answers, the signal connections, the page, the
    tabs, the popups and the authenticators are as before, and the trace
    has not grown: no favicon-changed notification (nor anything else)
    went out, the one of [_on_load_started] included. *)
Theorem load_events_change_progress_only (es : list load_event) (w : World) :
  run_events es w =
    with_view w
      {| _load_progress := WebView.get_load_progress (view (run_events es w));
         icon := icon (view w);
         connected := connected (view w) |} /\
  trace (run_events es w) = trace w.
Proof.
  split; [apply run_events_frame|].
  rewrite run_events_frame. reflexivity.
Qed.



(** The handlers do not clamp: a report outside 0..100 is stored as it
    is. *)
Example out_of_range_report_is_stored :
  progress_after [loadStarted; loadProgress 250; loadProgress (-7)] sample_world
    = [0; 250; -7].
Proof. reflexivity. Qed.

(** X7.  On a view whose [icon()] answers an icon, [get_favicon] answers
    that icon after any sequence of load events, a failed load
    included. *)
Theorem native_favicon_survives_load_events (es : list load_event) (w : World)
  (native : QIcon) (Hnative : icon (view w) = native) :
  WebView.get_favicon (view (run_events es w)) = native.
Proof.
  rewrite (run_events_frame es w).
  unfold WebView.get_favicon, QWebEngineView_icon. cbn [view with_view icon].
  exact Hnative.
Qed.

Lemma native_favicon_survives_load_events_witness :
  WebView.get_favicon
    (view (run_events (load_cycle [30] false)
             (with_view sample_world
                {| _load_progress := 100; icon := Favicon 3; connected := [] |})))
  = Favicon 3.
Proof.
  exact (native_favicon_survives_load_events (load_cycle [30] false)
           (with_view sample_world
              {| _load_progress := 100; icon := Favicon 3; connected := [] |})
           (Favicon 3) eq_refl).
Defined.

(** X13.  [_on_favicon_changed] gets as far as [self.get_icon()]: it
    raises [AttributeError] and relays nothing, whatever icon the page
    announced. *)
Theorem favicon_change_is_not_relayed (announced : QIcon) (w : World) :
  WebView._on_favicon_changed announced w
    = (Raise (AttributeError "WebView" "get_icon"), w).
Proof.
  unfold WebView._on_favicon_changed.
  apply bind_Raise.
  exact (call_method_missing t_WebView "get_icon" _ w (proj1 WebView_has_no_get_icon)).
Qed.

(* ===================================================================== *)
(** * 13. The rest of the page and of the view                            *)
(* ===================================================================== *)

(** X8.  [features.get(feature, "")]: the default [""] comes back exactly
    for a feature that is not one of the dictionary's seven keys, so an
    empty question means "no text is mapped"; for each key the question
    reads "Allow <host> to ...?", with the host of the requesting URL. *)
Theorem features_lookup (request : QUrl) (feature : Z) :
  (dict_get (WebPage.features request) feature "" = "" <-> ~ In feature feature_keys) /\
  (In feature feature_keys ->
     exists what : string,
       dict_get (WebPage.features request) feature ""
         = "Allow " ++ host request ++ " to " ++ what ++ "?").
Proof.
  unfold feature_keys, Geolocation, MediaAudioCapture, MediaVideoCapture,
    MediaAudioVideoCapture, MouseLock, DesktopVideoCapture, DesktopAudioVideoCapture.
  split; [split|].
  - intros Hempty Hin. cbn [In] in Hin.
    destruct Hin as [<-|[<-|[<-|[<-|[<-|[<-|[<-|[]]]]]]]]; discriminate Hempty.
  - intros Hout. unfold dict_get, WebPage.features, Geolocation, MediaAudioCapture,
      MediaVideoCapture, MediaAudioVideoCapture, MouseLock, DesktopVideoCapture,
      DesktopAudioVideoCapture. cbn [find fst snd].
    repeat match goal with
           | |- context [Z.eqb ?k feature] =>
               destruct (Z.eqb_spec k feature) as [Heq|_];
               [exfalso; apply Hout; cbn [In]; rewrite Heq; tauto|]
           end.
    reflexivity.
  - intros Hin. cbn [In] in Hin.
    destruct Hin as [<-|[<-|[<-|[<-|[<-|[<-|[<-|[]]]]]]]].
    + exists "access your location information". reflexivity.
    + exists "access your microphone". reflexivity.
    + exists "access your webcam". reflexivity.
    + exists "access your microphone and webcam". reflexivity.
    + exists "lock your mouse cursor". reflexivity.
    + exists "capture video of your desktop". reflexivity.
    + exists "capture audio and video of your desktop". reflexivity.
Qed.

(** X9.  [_on_register_protocol_handler_requested] hands the page to
    [QMessageBox.question] as parent widget, which it is not: for every
    request the handler raises [TypeError] before anything is shown, and
    the request is neither accepted nor rejected. *)
Theorem protocol_handler_request_is_left_undecided
  (request : QWebEngineRegisterProtocolHandlerRequest) (w : World) :
  WebPage._on_register_protocol_handler_requested request w
    = (Raise (TypeError "argument 1 has unexpected type 'WebPage'"), w).
Proof.
  unfold WebPage._on_register_protocol_handler_requested.
  rewrite (bind_Ok _ _ w w (Function "question"))
    by exact (proj1 (QMessageBox_question_and_Question w)).
  apply bind_Raise. unfold call_message_box.
  now rewrite (proj1 page_is_not_a_widget).
Qed.

(** X10.  [set_page] asks the page for [page.action(webaction)] with a
    member of the view's own [WebAction] class, which the binding does not
    take for its enumeration: for every page the first such call raises
    [TypeError], nothing is relayed or connected, and [setPage] is not
    reached, so the view keeps the page it had. *)
Theorem set_page_never_installs_the_page (page : WebPageObject) (w : World) :
  WebView.set_page page w
    = (Raise (TypeError "argument 1 has unexpected type 'WebAction'"), w).
Proof.
  unfold WebView.set_page.
  apply bind_Raise. apply bind_Raise. reflexivity.
Qed.

(** A page on another profile, all of whose actions are enabled: the
    view's profile is unchanged and no state went out. *)
Example set_page_sample :
  let page := {| wp_profile := 5%nat; wp_enabled := fun _ => true |} in
  page_profile (after (WebView.set_page page) sample_world) = O /\
  trace (after (WebView.set_page page) sample_world) = [] /\
  page_profile (after (setPage page) sample_world) = 5%nat.
Proof. repeat split. Qed.

(** X11.  Importing the package ends in [exit(1)], after one critical log
    record, exactly when [platform.system()] is neither ["Windows"] nor
    ["Linux"] (compared as written, so ["linux"] and ["Darwin"] both
    exit); otherwise [WindowsManager] is the Win32 class on Windows and
    the X class on Linux. *)
Theorem import_package_by_system (system_name : string) :
  (orchid.import_package system_name
     = orchid.SystemExit 1 "Failure to manage unknown OS."
   <-> system_name <> "Windows" /\ system_name <> "Linux") /\
  (orchid.import_package system_name = orchid.Imported orchid.Win32WindowsManager
   <-> system_name = "Windows") /\
  (orchid.import_package system_name = orchid.Imported orchid.XWindowsManager
   <-> system_name = "Linux").
Proof.
  unfold orchid.import_package.
  destruct (String.eqb_spec system_name "Windows") as [Hw|Hw];
    [|destruct (String.eqb_spec system_name "Linux") as [Hl|Hl]].
  - subst. repeat split; try discriminate; try reflexivity.
    intros [H _]. now contradiction H.
  - subst. repeat split; try discriminate; try reflexivity.
    intros [_ H]. now contradiction H.
  - repeat split; try discriminate; try assumption;
      intros H; subst; contradiction.
Qed.

Example import_package_samples :
  orchid.import_package "Darwin" = orchid.SystemExit 1 "Failure to manage unknown OS." /\
  orchid.import_package "linux" = orchid.SystemExit 1 "Failure to manage unknown OS." /\
  orchid.import_package "Linux" = orchid.Imported orchid.XWindowsManager.
Proof. repeat split. Qed.
